(** * A shallow embedding of the LLM forwarding proxy (src/llm/src/main.rs)

    The handler [proxy] reads the upstream base from the environment,
    builds one outbound request from the inbound one, sends it and turns the
    outcome into a response.  Its effects (reading an environment variable,
    sending the outbound request, panicking in [unwrap]) are the operations of
    a small free monad [Proxy]; [run] interprets a program against a [World]
    that fixes the environment and the network at handling time, and records
    a trace of the effects performed. *)

From Stdlib Require Import String List ZArith Lia Bool.
From Stdlib Require Import Strings.Byte Ascii.
Import ListNotations.
Open Scope string_scope.

(** ** Rust prelude *)

Definition bytes := list byte.

Inductive result (T E : Type) : Type :=
| Ok (v : T)
| Err (e : E).
Arguments Ok {T E} v.
Arguments Err {T E} e.

Definition unwrap_or_else {T E} (r : result T E) (f : E -> T) : T :=
  match r with Ok v => v | Err e => f e end.

(** [Result::<Bytes, _>::unwrap_or_default]: the default of [Bytes] is empty. *)
Definition unwrap_or_default {E} (r : result bytes E) : bytes :=
  match r with Ok v => v | Err _ => [] end.

Definition option_unwrap_or {T} (o : option T) (d : T) : T :=
  match o with Some v => v | None => d end.

(** ** std::env *)

Inductive VarError :=
| NotPresent
| NotUnicode (raw : bytes).

(** The process environment as [env::var] sees it. *)
Definition Env := string -> result string VarError.

(** ** http: methods, headers, status codes *)

Definition Method := string.
Definition HeaderMap := list (string * string).

(** [StatusCode] holds a value in [100, 1000) by construction. *)
Definition status_valid (n : Z) : bool := (100 <=? n)%Z && (n <? 1000)%Z.

Record StatusCode := mkStatusCode {
  status_u16 : Z;
  status_ok : status_valid status_u16 = true
}.

(** [StatusCode::from_u16]. *)
Definition StatusCode_from_u16 (n : Z) : option StatusCode :=
  match status_valid n as b return status_valid n = b -> option StatusCode with
  | true => fun H => Some (mkStatusCode n H)
  | false => fun _ => None
  end eq_refl.

Definition StatusCode_OK : StatusCode := mkStatusCode 200 eq_refl.

(** ** The inbound request (axum::extract::Request) *)

Inductive BodyError :=
| BodyStreamError (msg : string)
| LengthLimitError.

Record Request := {
  req_method : Method;
  req_path_and_query : option string;
  req_headers : HeaderMap;
  (** the frames of the body stream, each a chunk of data or an error *)
  req_body : list (result bytes BodyError)
}.

Definition usize_MAX : Z := (2 ^ 64 - 1)%Z.

(** [axum::body::to_bytes]: collect the frames, failing on the first stream
    error or as soon as the collected length exceeds [limit]. *)
Fixpoint collect (acc : bytes) (frames : list (result bytes BodyError)) (limit : Z)
  : result bytes BodyError :=
  match frames with
  | [] => Ok acc
  | Ok chunk :: rest =>
      if (limit <? Z.of_nat (length (acc ++ chunk)%list))%Z then Err LengthLimitError
      else collect (acc ++ chunk)%list rest limit
  | Err e :: _ => Err e
  end.

Definition to_bytes (frames : list (result bytes BodyError)) (limit : Z) : result bytes BodyError :=
  collect [] frames limit.

(** ** reqwest: outbound requests and upstream responses *)

Record OutboundRequest := {
  out_method : Method;
  out_uri : string;
  out_headers : HeaderMap;
  out_body : bytes
}.

(** A [reqwest::Error], seen through its [Display]. *)
Record ReqwestError := { reqwest_error_display : string }.

Record UpstreamResponse := {
  up_status : StatusCode;
  up_headers : HeaderMap;
  (** [bytes_stream()]: the chunks of the upstream body as they arrive *)
  up_stream : list (result bytes ReqwestError)
}.

(** [Client::new()] is taken as infallible; [client.request(method, uri)]
    starts a builder with no headers and an empty body. *)
Definition Client_request (m : Method) (uri : string) : OutboundRequest :=
  {| out_method := m; out_uri := uri; out_headers := []; out_body := [] |}.

(** [RequestBuilder::headers]: every name present in [src] replaces the
    entries of that name in [dst]. *)
Definition replace_headers (dst src : HeaderMap) : HeaderMap :=
  (filter (fun kv => negb (existsb (fun kv' => String.eqb (fst kv') (fst kv)) src)) dst ++ src)%list.

Definition RequestBuilder_headers (rb : OutboundRequest) (h : HeaderMap) : OutboundRequest :=
  {| out_method := out_method rb; out_uri := out_uri rb;
     out_headers := replace_headers (out_headers rb) h; out_body := out_body rb |}.

Definition RequestBuilder_body (rb : OutboundRequest) (b : bytes) : OutboundRequest :=
  {| out_method := out_method rb; out_uri := out_uri rb;
     out_headers := out_headers rb; out_body := b |}.

(** ** reqwest at [send]: [Url::parse] of the target and the default headers

    [client.request(method, &uri)] parses [uri] with [Url::parse] (WHATWG URL
    parsing) and the client adds its default headers when the request is
    executed. The parse is modelled on the strings this handler produces: a
    lowercase "http://" or "https://" scheme, an authority already in
    serialised form (lowercase ASCII domain labels, the last one starting
    with a letter, no "xn--" label, an optional port without leading zero
    other than the scheme's default) and no space or control character.
    For other strings [url_parse] returns [None]: the model says nothing
    about them. Within that fragment, the path and query are parsed as
    WHATWG does for special URLs: '/' and '\' separate segments, "." and
    ".." segments (also written with %2e) are resolved, and characters of
    the path, special-query and fragment percent-encode sets are encoded. *)





































(** ** http::Response and its builder *)

Inductive Body :=
| BodyFull (data : bytes)
| BodyStream (s : list (result bytes ReqwestError)).

Record Response := {
  resp_status : StatusCode;
  resp_headers : HeaderMap;
  resp_body : Body
}.

Inductive HttpError := InvalidStatusCode.

Record Parts := { parts_status : StatusCode; parts_headers : HeaderMap }.

Definition Builder := result Parts HttpError.

(** [Response::builder()]: status 200, no headers. *)
Definition Response_builder : Builder :=
  Ok {| parts_status := StatusCode_OK; parts_headers := [] |}.

(** The argument of [Builder::status], converted with [TryInto<StatusCode>]. *)
Inductive StatusArg :=
| StatusFromCode (c : StatusCode)
| StatusFromU16 (n : Z).

Definition try_into_status (a : StatusArg) : result StatusCode HttpError :=
  match a with
  | StatusFromCode c => Ok c
  | StatusFromU16 n =>
      match StatusCode_from_u16 n with Some c => Ok c | None => Err InvalidStatusCode end
  end.

Definition builder_status (b : Builder) (a : StatusArg) : Builder :=
  match b with
  | Ok p =>
      match try_into_status a with
      | Ok c => Ok {| parts_status := c; parts_headers := parts_headers p |}
      | Err e => Err e
      end
  | Err e => Err e
  end.

Definition builder_body (b : Builder) (body : Body) : result Response HttpError :=
  match b with
  | Ok p => Ok {| resp_status := parts_status p; resp_headers := parts_headers p;
                  resp_body := body |}
  | Err e => Err e
  end.

(** ** The effects of a handler *)

Inductive Proxy (A : Type) : Type :=
| Ret (a : A)
| EnvVar (name : string) (k : result string VarError -> Proxy A)
| Send (r : OutboundRequest) (k : result UpstreamResponse ReqwestError -> Proxy A)
| Panic (msg : string).
Arguments Ret {A} a.
Arguments EnvVar {A} name k.
Arguments Send {A} r k.
Arguments Panic {A} msg.

Fixpoint bind {A B} (m : Proxy A) (f : A -> Proxy B) : Proxy B :=
  match m with
  | Ret a => f a
  | EnvVar n k => EnvVar n (fun v => bind (k v) f)
  | Send r k => Send r (fun v => bind (k v) f)
  | Panic msg => Panic msg
  end.

Notation "x <- m ;; k" := (bind m (fun x => k))
  (at level 61, m at next level, right associativity).

(** [env::var(name)] *)
Definition env_var (name : string) : Proxy (result string VarError) := EnvVar name Ret.

(** [.send().await] *)
Definition send (r : OutboundRequest) : Proxy (result UpstreamResponse ReqwestError) :=
  Send r Ret.

(** [Result::unwrap]: panics on [Err]. *)
Definition unwrap {T E} (r : result T E) : Proxy T :=
  match r with
  | Ok v => Ret v
  | Err _ => Panic "called `Result::unwrap()` on an `Err` value"
  end.

(** The environment and the network at the time one request is handled. *)
Record World := {
  w_env : Env;
  w_send : OutboundRequest -> result UpstreamResponse ReqwestError
}.

Inductive Event :=
| EvEnvVar (name : string) (value : result string VarError)
| EvSend (r : OutboundRequest) (outcome : result UpstreamResponse ReqwestError).

Inductive Outcome (A : Type) :=
| Done (a : A)
| Panicked (msg : string).
Arguments Done {A} a.
Arguments Panicked {A} msg.

Fixpoint run {A} (w : World) (p : Proxy A) : list Event * Outcome A :=
  match p with
  | Ret a => ([], Done a)
  | EnvVar n k =>
      let v := w_env w n in
      let (tr, o) := run w (k v) in (EvEnvVar n v :: tr, o)
  | Send r k =>
      let v := w_send w r in
      let (tr, o) := run w (k v) in (EvSend r v :: tr, o)
  | Panic msg => ([], Panicked msg)
  end.

(** ** The handler *)

Definition format_proxy_error (e : ReqwestError) : string :=
  "Proxy error: " ++ reqwest_error_display e.

(** [Body::from_stream(r.bytes_stream())] *)
Definition Body_from_stream (r : UpstreamResponse) : Body := BodyStream (up_stream r).

(** [Body::from(String)] *)
Definition Body_from_string (s : string) : Body := BodyFull (list_byte_of_string s).

Definition proxy (req : Request) : Proxy Response :=
  v <- env_var "OLLAMA_UPSTREAM" ;;
  let upstream := unwrap_or_else v (fun _ => "http://localhost:11435") in
  let uri := upstream ++ option_unwrap_or (req_path_and_query req) "/" in
  let method := req_method req in
  let headers := req_headers req in
  let body := unwrap_or_default (to_bytes (req_body req) usize_MAX) in
  resp <- send (RequestBuilder_body
                  (RequestBuilder_headers (Client_request method uri) headers) body) ;;
  match resp with
  | Ok r =>
      unwrap (builder_body (builder_status Response_builder (StatusFromCode (up_status r)))
                (Body_from_stream r))
  | Err e =>
      unwrap (builder_body (builder_status Response_builder (StatusFromU16 502))
                (Body_from_string (format_proxy_error e)))
  end.

(** The outbound requests a handled request issued. *)
Fixpoint sent (tr : list Event) : list OutboundRequest :=
  match tr with
  | [] => []
  | EvSend r _ :: tr' => r :: sent tr'
  | _ :: tr' => sent tr'
  end.

Definition handle (w : World) (req : Request) : list Event * Outcome Response :=
  run w (proxy req).

Lemma handle_unfold (w : World) (req : Request) :
  exists o,
    let v := w_env w "OLLAMA_UPSTREAM" in
    o = RequestBuilder_body
          (RequestBuilder_headers
             (Client_request (req_method req)
                (unwrap_or_else v (fun _ => "http://localhost:11435")
                 ++ option_unwrap_or (req_path_and_query req) "/"))
             (req_headers req))
          (unwrap_or_default (to_bytes (req_body req) usize_MAX)) /\
    handle w req =
      ([EvEnvVar "OLLAMA_UPSTREAM" v; EvSend o (w_send w o)],
       match w_send w o with
       | Ok r => Done {| resp_status := up_status r; resp_headers := [];
                         resp_body := BodyStream (up_stream r) |}
       | Err e => Done {| resp_status := mkStatusCode 502 eq_refl; resp_headers := [];
                          resp_body := BodyFull (list_byte_of_string (format_proxy_error e)) |}
       end).
Proof.
  eexists; split; [reflexivity|].
  unfold handle, proxy; cbn.
  destruct (w_send w _); reflexivity.
Qed.

(** A server handles each request in the world current at its handling time. *)
Definition serve (handled : list (World * Request)) : list (list Event * Outcome Response) :=
  map (fun wr => handle (fst wr) (snd wr)) handled.

(** ** The router of [main]

    [Router::new().route("/{*path}", any(proxy)).route("/", any(proxy))
     .layer(CorsLayer::permissive())].
    A route pattern is either a static path or a prefix followed by a
    catch-all parameter; as in axum, a catch-all matches one or more
    characters, never the empty remainder. The value a catch-all captures
    (which axum percent-decodes) is not modelled: [proxy] takes the whole
    request and never reads it, so a lookup yields only the handler. *)

Inductive RoutePattern :=
| Exact (path : string)
| CatchAll (pre : string) (param : string).

Inductive Handler := HProxy.

(** [any(h)]: the handler for every method. *)
Definition MethodRouter := Method -> option Handler.
Definition any (h : Handler) : MethodRouter := fun _ => Some h.

Definition match_route (pat : RoutePattern) (path : string) : bool :=
  match pat with
  | Exact s => String.eqb s path
  | CatchAll pre _ =>
      String.prefix pre path &&
      negb (String.eqb (substring (String.length pre)
                          (String.length path - String.length pre) path) "")
  end.

(** The static and the catch-all route never overlap, so lookup in
    declaration order is the same as lookup by priority. [None] is a 404. *)
Fixpoint route (routes : list (RoutePattern * MethodRouter)) (m : Method) (path : string)
  : option Handler :=
  match routes with
  | [] => None
  | (pat, mr) :: rest =>
      if match_route pat path then mr m else route rest m path
  end.

Definition app_routes : list (RoutePattern * MethodRouter) :=
  [(CatchAll "/" "path", any HProxy); (Exact "/", any HProxy)].

(** Where a request goes in the served app. *)
Inductive Dispatch :=
| AnsweredByCors
| Routed (h : Handler)
| NotFound.

(** [CorsLayer::permissive()] wraps the router: it answers every OPTIONS
    request itself, as a preflight, and passes every other request on to the
    router. The headers the layer adds are not modelled. *)
Definition app_call (m : Method) (path : string) : Dispatch :=
  if String.eqb m "OPTIONS" then AnsweredByCors
  else match route app_routes m path with
       | Some h => Routed h
       | None => NotFound
       end.

(** ** [main]

    Prints the startup line, binds the listener and serves; both awaits are
    followed by [unwrap]. The [CorsLayer] wrapping the router is left
    abstract: serving is one effect whose outcome the world decides. *)

Record IoError := { io_error_display : string }.

Inductive MainProg :=
| MDone
| MPrint (line : string) (k : MainProg)
| MBind (addr : string) (k : result unit IoError -> MainProg)
| MServe (routes : list (RoutePattern * MethodRouter)) (k : result unit IoError -> MainProg)
| MPanic (msg : string).

Definition unwrap_main (r : result unit IoError) (k : MainProg) : MainProg :=
  match r with
  | Ok _ => k
  | Err _ => MPanic "called `Result::unwrap()` on an `Err` value"
  end.

Definition main_addr : string := "0.0.0.0:11434".

Definition main : MainProg :=
  let app := app_routes in
  let addr := main_addr in
  MPrint ("LLM proxy listening on " ++ addr)
    (MBind addr (fun listener =>
       unwrap_main listener
         (MServe app (fun served => unwrap_main served MDone)))).

Record MainWorld := {
  mw_bind : string -> result unit IoError;
  mw_serve : result unit IoError
}.

Inductive MainEvent :=
| EvPrint (line : string)
| EvBind (addr : string) (outcome : result unit IoError)
| EvServe (routes : list (RoutePattern * MethodRouter)) (outcome : result unit IoError).

Fixpoint run_main (w : MainWorld) (p : MainProg) : list MainEvent * Outcome unit :=
  match p with
  | MDone => ([], Done tt)
  | MPrint l k => let (tr, o) := run_main w k in (EvPrint l :: tr, o)
  | MBind a k =>
      let v := mw_bind w a in
      let (tr, o) := run_main w (k v) in (EvBind a v :: tr, o)
  | MServe rs k =>
      let v := mw_serve w in
      let (tr, o) := run_main w (k v) in (EvServe rs v :: tr, o)
  | MPanic msg => ([], Panicked msg)
  end.

(** ** Concrete inputs *)

Definition req_root : Request :=
  {| req_method := "GET"; req_path_and_query := Some "/"; req_headers := [];
     req_body := [] |}.

Definition req_anything : Request :=
  {| req_method := "POST"; req_path_and_query := Some "/anything?x=1";
     req_headers := [("content-type", "application/json")];
     req_body := [Ok (list_byte_of_string "{"); Ok (list_byte_of_string "a:1}")] |}.

Definition req_broken_body : Request :=
  {| req_method := "PUT"; req_path_and_query := Some "/api/generate";
     req_headers := [("x-k", "v")];
     req_body := [Ok (list_byte_of_string "par"); Err (BodyStreamError "connection reset")] |}.

Definition upstream_reply (code : StatusCode) (h : HeaderMap) : UpstreamResponse :=
  {| up_status := code; up_headers := h;
     up_stream := [Ok (list_byte_of_string "one"); Ok (list_byte_of_string "two")] |}.

Definition status_404 : StatusCode := mkStatusCode 404 eq_refl.

(** An upstream that answers every request. *)
Definition world_answering (env : Env) (u : UpstreamResponse) : World :=
  {| w_env := env; w_send := fun _ => Ok u |}.

(** An upstream that cannot be reached. *)
Definition world_refused (env : Env) : World :=
  {| w_env := env; w_send := fun _ => Err {| reqwest_error_display :=
       "error sending request for url (http://localhost:11435/)" |} |}.

Definition env_unset : Env := fun _ => Err NotPresent.
Definition env_set (v : string) : Env :=
  fun name => if String.eqb name "OLLAMA_UPSTREAM" then Ok v else Err NotPresent.







(** ** Auxiliary lemmas *)




















Lemma collect_ok (frames : list (result bytes BodyError)) :
  forall acc lim b, collect acc frames lim = Ok b ->
  exists chunks, frames = map Ok chunks /\ b = (acc ++ concat chunks)%list.
Proof.
  induction frames as [|[chunk|e] rest IH]; intros acc lim b H; cbn in H.
  - injection H as <-. exists []. rewrite app_nil_r. split; reflexivity.
  - destruct (lim <? _)%Z; [discriminate|].
    destruct (IH _ _ _ H) as (cs & -> & ->).
    exists (chunk :: cs). cbn. rewrite app_assoc. split; reflexivity.
  - discriminate.
Qed.



Ltac handle_cases w req :=
  let o := fresh "o" in
  let Ho := fresh "Ho" in
  let Hh := fresh "Hh" in
  destruct (handle_unfold w req) as (o & Ho & Hh); cbv zeta in Ho, Hh;
  rewrite Hh in *.


(** ** Examples on concrete inputs *)

Example target_anything :
  map out_uri (sent (fst (handle (world_refused (env_set "http://u:9999")) req_anything)))
  = ["http://u:9999/anything?x=1"].
Proof. reflexivity. Qed.

(** The string the handler hands to the client keeps the path as written. *)
Example handler_uri_verbatim :
  map out_uri (sent (fst (handle (world_refused env_unset)
     {| req_method := "GET"; req_path_and_query := Some "//a//./b?q=%2F";
        req_headers := []; req_body := [] |})))
  = ["http://localhost:11435//a//./b?q=%2F"].
Proof. reflexivity. Qed.

Example target_no_path :
  map out_uri (sent (fst (handle (world_refused env_unset)
     {| req_method := "CONNECT"; req_path_and_query := None;
        req_headers := []; req_body := [] |})))
  = ["http://localhost:11435/"].
Proof. reflexivity. Qed.

(** ** Claims *)











(** C5: the handler reads the variable OLLAMA_UPSTREAM first; the base of
    the target is its value when it is set and readable, and
    "http://localhost:11435" when reading it fails (unset or not unicode). *)
Theorem proxy_upstream_from_env (w : World) (req : Request) :
  exists base rest,
    fst (handle w req) = EvEnvVar "OLLAMA_UPSTREAM" (w_env w "OLLAMA_UPSTREAM") :: rest /\
    (forall s, w_env w "OLLAMA_UPSTREAM" = Ok s -> base = s) /\
    (forall e, w_env w "OLLAMA_UPSTREAM" = Err e -> base = "http://localhost:11435") /\
    map out_uri (sent (fst (handle w req))) =
      [base ++ option_unwrap_or (req_path_and_query req) "/"].
Proof.
  handle_cases w req. subst o. cbn [fst].
  exists (unwrap_or_else (w_env w "OLLAMA_UPSTREAM") (fun _ => "http://localhost:11435")).
  eexists. split; [reflexivity|].
  split; [intros s Hs; rewrite Hs; reflexivity|].
  split; [intros e He; rewrite He; reflexivity|].
  reflexivity.
Qed.

(** C6: when reading the inbound body fails, the outbound request is still
    issued, with the inbound method and headers and an empty body, and the
    handler still responds. *)
Theorem proxy_body_error_forwards_empty (w : World) (req : Request) (e : BodyError)
  (Hread : to_bytes (req_body req) usize_MAX = Err e) :
  exists o,
    sent (fst (handle w req)) = [o] /\
    In (EvSend o (w_send w o)) (fst (handle w req)) /\
    out_body o = [] /\
    out_method o = req_method req /\
    out_headers o = req_headers req /\
    exists r, snd (handle w req) = Done r.
Proof.
  handle_cases w req. exists o. cbn [fst snd sent].
  split; [reflexivity|]. split; [right; left; reflexivity|].
  rewrite Hread in Ho. subst o. cbn.
  repeat split.
  destruct (w_send w _); eexists; reflexivity.
Qed.

Lemma proxy_body_error_forwards_empty_witness :
  to_bytes (req_body req_broken_body) usize_MAX = Err (BodyStreamError "connection reset") /\
  exists o,
    sent (fst (handle (world_refused env_unset) req_broken_body)) = [o] /\
    In (EvSend o (w_send (world_refused env_unset) o))
       (fst (handle (world_refused env_unset) req_broken_body)) /\
    out_body o = [] /\
    out_method o = req_method req_broken_body /\
    out_headers o = req_headers req_broken_body /\
    exists r, snd (handle (world_refused env_unset) req_broken_body) = Done r.
Proof.
  split; [vm_compute; reflexivity|].
  apply (proxy_body_error_forwards_empty _ _ (BodyStreamError "connection reset")).
  vm_compute. reflexivity.
Defined.




(** C8: both response constructions of the handler succeed ([Builder::status]
    with an upstream [StatusCode], and with the number 502), so neither
    [unwrap] can panic, and every handled request ends in a response: the
    relayed upstream status or 502. *)
Theorem proxy_total :
  (forall (c : StatusCode) (b : Body),
     exists r, builder_body (builder_status Response_builder (StatusFromCode c)) b = Ok r) /\
  (forall b : Body,
     exists r, builder_body (builder_status Response_builder (StatusFromU16 502)) b = Ok r) /\
  (forall (w : World) (req : Request),
     exists r, snd (handle w req) = Done r /\
       (status_u16 (resp_status r) = 502%Z \/
        exists o u, In (EvSend o (Ok u)) (fst (handle w req)) /\
                    resp_status r = up_status u)).
Proof.
  split; [intros c b; eexists; reflexivity|].
  split; [intros b; eexists; reflexivity|].
  intros w req. handle_cases w req. cbn [fst snd].
  destruct (w_send w o) as [u|e] eqn:Hs; eexists; (split; [reflexivity|]).
  - right. exists o, u. split; [right; left; reflexivity|reflexivity].
  - left. reflexivity.
Qed.

(** C9 (as stated, refuted): an unset OLLAMA_UPSTREAM and one set to exactly
    "http://localhost:11435" are different environments, yet two requests
    handled under them are forwarded to the same base and target. *)
Lemma serve_env_change_counterexample :
  let w1 := world_refused env_unset in
  let w2 := world_refused (env_set "http://localhost:11435") in
  w_env w1 "OLLAMA_UPSTREAM" <> w_env w2 "OLLAMA_UPSTREAM" /\
  map (fun h => map out_uri (sent (fst h))) (serve [(w1, req_root); (w2, req_root)])
  = [["http://localhost:11435/"]; ["http://localhost:11435/"]].
Proof.
  cbv zeta. split; [cbn; discriminate|reflexivity].
Qed.

Lemma serve_nth (handled : list (World * Request)) (n : nat) (w : World) (req : Request) :
  nth_error handled n = Some (w, req) ->
  nth_error (serve handled) n = Some (handle w req).
Proof.
  intros H. unfold serve. rewrite nth_error_map, H. reflexivity.
Qed.

(** C9 (amended): a server reads OLLAMA_UPSTREAM afresh for every request:
    the [i]-th and [j]-th handled requests each read the variable in the
    environment current at their own handling time and are forwarded to the
    base resolved from that value (the value when set and readable, else
    "http://localhost:11435"); so their bases differ exactly when the two
    resolved values differ. *)
Theorem serve_reads_env_per_request (handled : list (World * Request)) (i j : nat)
  (wi wj : World) (ri rj : Request)
  (Hi : nth_error handled i = Some (wi, ri))
  (Hj : nth_error handled j = Some (wj, rj)) :
  exists tri outi trj outj,
    nth_error (serve handled) i = Some (tri, outi) /\
    nth_error (serve handled) j = Some (trj, outj) /\
    hd_error tri = Some (EvEnvVar "OLLAMA_UPSTREAM" (w_env wi "OLLAMA_UPSTREAM")) /\
    hd_error trj = Some (EvEnvVar "OLLAMA_UPSTREAM" (w_env wj "OLLAMA_UPSTREAM")) /\
    map out_uri (sent tri) =
      [unwrap_or_else (w_env wi "OLLAMA_UPSTREAM") (fun _ => "http://localhost:11435")
       ++ option_unwrap_or (req_path_and_query ri) "/"] /\
    map out_uri (sent trj) =
      [unwrap_or_else (w_env wj "OLLAMA_UPSTREAM") (fun _ => "http://localhost:11435")
       ++ option_unwrap_or (req_path_and_query rj) "/"].
Proof.
  rewrite (serve_nth _ _ _ _ Hi), (serve_nth _ _ _ _ Hj).
  destruct (handle_unfold wi ri) as (oi & Hoi & Hhi).
  destruct (handle_unfold wj rj) as (oj & Hoj & Hhj).
  cbv zeta in *. rewrite Hhi, Hhj. subst oi oj.
  do 4 eexists. repeat split.
Qed.

Definition handled_two : list (World * Request) :=
  [(world_refused env_unset, req_root);
   (world_refused (env_set "http://gpu-box:9999"), req_anything)].

Lemma serve_reads_env_per_request_witness :
  nth_error handled_two 0 = Some (world_refused env_unset, req_root) /\
  nth_error handled_two 1 = Some (world_refused (env_set "http://gpu-box:9999"), req_anything) /\
  exists tri outi trj outj,
    nth_error (serve handled_two) 0 = Some (tri, outi) /\
    nth_error (serve handled_two) 1 = Some (trj, outj) /\
    hd_error tri = Some (EvEnvVar "OLLAMA_UPSTREAM"
                           (w_env (world_refused env_unset) "OLLAMA_UPSTREAM")) /\
    hd_error trj = Some (EvEnvVar "OLLAMA_UPSTREAM"
                           (w_env (world_refused (env_set "http://gpu-box:9999")) "OLLAMA_UPSTREAM")) /\
    map out_uri (sent tri) =
      [unwrap_or_else (w_env (world_refused env_unset) "OLLAMA_UPSTREAM")
         (fun _ => "http://localhost:11435")
       ++ option_unwrap_or (req_path_and_query req_root) "/"] /\
    map out_uri (sent trj) =
      [unwrap_or_else (w_env (world_refused (env_set "http://gpu-box:9999")) "OLLAMA_UPSTREAM")
         (fun _ => "http://localhost:11435")
       ++ option_unwrap_or (req_path_and_query req_anything) "/"].
Proof.
  split; [reflexivity|]. split; [reflexivity|].
  apply (serve_reads_env_per_request handled_two 0 1); reflexivity.
Defined.

(** C10: the handler is deterministic: two runs on the same request, with
    the same value of OLLAMA_UPSTREAM and the same outcome of the outbound
    call, perform the same effects and produce the same response, whatever
    else differs between the two environments and networks. *)
Theorem proxy_deterministic (w1 w2 : World) (req : Request) (o : OutboundRequest)
  (Henv : w_env w1 "OLLAMA_UPSTREAM" = w_env w2 "OLLAMA_UPSTREAM")
  (Hsent : In o (sent (fst (handle w1 req))))
  (Hsend : w_send w1 o = w_send w2 o) :
  handle w1 req = handle w2 req.
Proof.
  destruct (handle_unfold w1 req) as (o1 & Ho1 & Hh1).
  destruct (handle_unfold w2 req) as (o2 & Ho2 & Hh2).
  cbv zeta in *. rewrite Hh1 in Hsent |- *. rewrite Hh2.
  cbn in Hsent. destruct Hsent as [<-|[]].
  assert (o1 = o2) as <- by (rewrite Ho1, Ho2, Henv; reflexivity).
  rewrite Henv, Hsend. reflexivity.
Qed.

Definition world_gpu : World :=
  world_answering (env_set "http://gpu-box:9999") (upstream_reply status_404 []).

(** Same OLLAMA_UPSTREAM and same answer to the forwarded request, but other
    variables and other destinations behave differently. *)
Definition world_gpu' : World :=
  {| w_env := fun name => if String.eqb name "OLLAMA_UPSTREAM"
                          then Ok "http://gpu-box:9999" else Ok "other";
     w_send := fun r => if String.eqb (out_uri r) "http://gpu-box:9999/anything?x=1"
                        then Ok (upstream_reply status_404 [])
                        else Err {| reqwest_error_display := "refused" |} |}.

Definition out_anything : OutboundRequest :=
  {| out_method := "POST"; out_uri := "http://gpu-box:9999/anything?x=1";
     out_headers := [("content-type", "application/json")];
     out_body := list_byte_of_string "{a:1}" |}.

Lemma proxy_deterministic_witness :
  w_env world_gpu "OLLAMA_UPSTREAM" = w_env world_gpu' "OLLAMA_UPSTREAM" /\
  In out_anything (sent (fst (handle world_gpu req_anything))) /\
  w_send world_gpu out_anything = w_send world_gpu' out_anything /\
  handle world_gpu req_anything = handle world_gpu' req_anything.
Proof.
  split; [reflexivity|]. split; [vm_compute; left; reflexivity|].
  split; [reflexivity|].
  apply (proxy_deterministic world_gpu world_gpu' req_anything out_anything);
    [reflexivity| |reflexivity].
  vm_compute. left. reflexivity.
Defined.

(** ** Further properties of the code *)

(** Every path that starts with "/" is matched by the router, whatever the
    method ("/" by the static route, any longer path by the catch-all), and
    the match is [proxy]. In the served app, which is the router under the
    CORS layer, such a request reaches [proxy] unless its method is OPTIONS;
    an OPTIONS request is answered by the layer and never reaches [proxy]. *)
Theorem app_dispatch_slash_paths (m : Method) (rest : string) :
  route app_routes m ("/" ++ rest) = Some HProxy /\
  app_call m ("/" ++ rest) =
    if String.eqb m "OPTIONS" then AnsweredByCors else Routed HProxy.
Proof.
  assert (Hr : route app_routes m ("/" ++ rest) = Some HProxy).
  { destruct rest as [|a s]; [reflexivity|].
    reflexivity. }
  split; [exact Hr|].
  unfold app_call. rewrite Hr. reflexivity.
Qed.

(** A path that does not start with "/" (such as the asterisk form "*")
    matches neither route, so the router answers it without calling [proxy]. *)
Theorem route_other_paths (m : Method) (path : string)
  (H : String.prefix "/" path = false) :
  route app_routes m path = None.
Proof.
  cbn [route app_routes match_route]. rewrite H. cbn [andb].
  destruct (String.eqb_spec "/" path) as [<-|_]; [discriminate|reflexivity].
Qed.

Lemma route_other_paths_witness :
  String.prefix "/" "*" = false /\ route app_routes "OPTIONS" "*" = None.
Proof.
  split; [reflexivity|]. apply route_other_paths. reflexivity.
Defined.

Lemma collect_map_ok (cs : list bytes) :
  forall acc lim, (Z.of_nat (length acc) <= lim)%Z ->
  collect acc (map Ok cs) lim =
    if (lim <? Z.of_nat (length (acc ++ concat cs)%list))%Z then Err LengthLimitError
    else Ok (acc ++ concat cs)%list.
Proof.
  induction cs as [|c cs IH]; intros acc lim Hacc; cbn [map collect concat].
  - rewrite app_nil_r. destruct (Z.ltb_spec lim (Z.of_nat (length acc))); [lia|reflexivity].
  - destruct (Z.ltb_spec lim (Z.of_nat (length (acc ++ c)%list))) as [Hlt|Hle].
    + rewrite app_assoc, length_app with (l := (acc ++ c)%list).
      destruct (Z.ltb_spec lim (Z.of_nat (length (acc ++ c)%list + length (concat cs))));
        [reflexivity|lia].
    + rewrite IH by exact Hle. rewrite app_assoc. reflexivity.
Qed.

(** The handler's body read [to_bytes(body, usize::MAX)] succeeds exactly
    when no frame of the body stream is an error and the body has at most
    usize::MAX bytes; the bytes read are then all the frames, in order. *)
Theorem to_bytes_ok_iff (frames : list (result bytes BodyError)) (b : bytes) :
  to_bytes frames usize_MAX = Ok b <->
  exists chunks, frames = map Ok chunks /\ b = concat chunks /\
                 (Z.of_nat (length b) <= usize_MAX)%Z.
Proof.
  unfold to_bytes. split.
  - intros H. destruct (collect_ok _ _ _ _ H) as (cs & -> & Hb).
    cbn in Hb. subst b. exists cs. split; [reflexivity|]. split; [reflexivity|].
    rewrite collect_map_ok in H by (cbn; unfold usize_MAX; lia).
    cbn [app] in H. destruct (Z.ltb_spec usize_MAX (Z.of_nat (length (concat cs)))); [discriminate|lia].
  - intros (cs & -> & -> & Hlen).
    rewrite collect_map_ok by (cbn; unfold usize_MAX; lia). cbn [app].
    destruct (Z.ltb_spec usize_MAX (Z.of_nat (length (concat cs)))); [lia|reflexivity].
Qed.

(** If any frame of the inbound body stream is an error, the data already
    received is dropped: the single outbound request carries an empty body. *)
Theorem proxy_drops_partial_body (w : World) (req : Request) (e : BodyError)
  (Herr : In (Err e) (req_body req)) :
  exists o, sent (fst (handle w req)) = [o] /\ out_body o = [].
Proof.
  handle_cases w req. exists o. split; [reflexivity|].
  subst o. cbn [out_body RequestBuilder_body].
  destruct (to_bytes (req_body req) usize_MAX) as [b|e'] eqn:Hread; [|reflexivity].
  destruct (collect_ok _ _ _ _ Hread) as (cs & Hf & _).
  rewrite Hf in Herr. apply in_map_iff in Herr as (c & Hc & _). discriminate.
Qed.

Lemma proxy_drops_partial_body_witness :
  In (Err (BodyStreamError "connection reset")) (req_body req_broken_body) /\
  exists o, sent (fst (handle (world_refused env_unset) req_broken_body)) = [o] /\
            out_body o = [].
Proof.
  split; [cbn; right; left; reflexivity|].
  apply (proxy_drops_partial_body _ _ (BodyStreamError "connection reset")).
  cbn; right; left; reflexivity.
Defined.

(** An inbound body whose frames are all data, at most usize::MAX bytes in
    total, is forwarded whole: the outbound body is all frames, in order. *)
Theorem proxy_forwards_whole_body (w : World) (req : Request) (chunks : list bytes)
  (Hframes : req_body req = map Ok chunks)
  (Hlen : (Z.of_nat (length (concat chunks)) <= usize_MAX)%Z) :
  exists o, sent (fst (handle w req)) = [o] /\ out_body o = concat chunks.
Proof.
  assert (Hread : to_bytes (req_body req) usize_MAX = Ok (concat chunks)).
  { apply to_bytes_ok_iff. exists chunks. repeat split; assumption. }
  handle_cases w req. exists o. split; [reflexivity|].
  rewrite Hread in Ho. subst o. reflexivity.
Qed.

Lemma proxy_forwards_whole_body_witness :
  req_body req_anything = map Ok [list_byte_of_string "{"; list_byte_of_string "a:1}"] /\
  (Z.of_nat (length (concat [list_byte_of_string "{"; list_byte_of_string "a:1}"]))
     <= usize_MAX)%Z /\
  exists o, sent (fst (handle (world_refused env_unset) req_anything)) = [o] /\
            out_body o = concat [list_byte_of_string "{"; list_byte_of_string "a:1}"].
Proof.
  split; [reflexivity|]. split; [vm_compute; discriminate|].
  apply proxy_forwards_whole_body; [reflexivity|vm_compute; discriminate].
Defined.

Definition startup_line : string := "LLM proxy listening on 0.0.0.0:11434".

(** If the listening address cannot be bound, [main] prints its startup line,
    attempts the bind of 0.0.0.0:11434, and panics without serving anything. *)
Theorem main_bind_failure (w : MainWorld) (e : IoError)
  (Hbind : mw_bind w main_addr = Err e) :
  run_main w main =
    ([EvPrint startup_line; EvBind main_addr (Err e)],
     Panicked "called `Result::unwrap()` on an `Err` value").
Proof.
  cbn [run_main main]. rewrite Hbind. reflexivity.
Qed.

Definition main_world_port_taken : MainWorld :=
  {| mw_bind := fun _ => Err {| io_error_display := "Address already in use (os error 98)" |};
     mw_serve := Ok tt |}.

Lemma main_bind_failure_witness :
  mw_bind main_world_port_taken main_addr =
    Err {| io_error_display := "Address already in use (os error 98)" |} /\
  run_main main_world_port_taken main =
    ([EvPrint startup_line;
      EvBind main_addr (Err {| io_error_display := "Address already in use (os error 98)" |})],
     Panicked "called `Result::unwrap()` on an `Err` value").
Proof.
  split; [reflexivity|]. apply main_bind_failure. reflexivity.
Defined.

(** Once the bind succeeds, [main] serves the router [app_routes]; it returns
    normally when serving ends without error and panics when serving fails. *)
Theorem main_serves_after_bind (w : MainWorld)
  (Hbind : mw_bind w main_addr = Ok tt) :
  fst (run_main w main) =
    [EvPrint startup_line; EvBind main_addr (Ok tt); EvServe app_routes (mw_serve w)] /\
  (snd (run_main w main) = Done tt <-> exists u, mw_serve w = Ok u) /\
  (forall e, mw_serve w = Err e ->
     snd (run_main w main) = Panicked "called `Result::unwrap()` on an `Err` value").
Proof.
  cbn [run_main main]. rewrite Hbind. cbn [unwrap_main run_main].
  destruct (mw_serve w) as [[]|e'] eqn:Hs; cbn.
  - split; [reflexivity|]. split; [split; [eauto|reflexivity]|].
    intros e H. discriminate.
  - split; [reflexivity|]. split; [split; [discriminate|intros (u & H); discriminate]|].
    intros e H. reflexivity.
Qed.

Definition main_world_serving : MainWorld :=
  {| mw_bind := fun _ => Ok tt; mw_serve := Ok tt |}.

Lemma main_serves_after_bind_witness :
  mw_bind main_world_serving main_addr = Ok tt /\
  fst (run_main main_world_serving main) =
    [EvPrint startup_line; EvBind main_addr (Ok tt);
     EvServe app_routes (mw_serve main_world_serving)] /\
  (snd (run_main main_world_serving main) = Done tt <->
     exists u, mw_serve main_world_serving = Ok u) /\
  (forall e, mw_serve main_world_serving = Err e ->
     snd (run_main main_world_serving main) =
       Panicked "called `Result::unwrap()` on an `Err` value").
Proof.
  split; [reflexivity|]. apply main_serves_after_bind. reflexivity.
Defined.
